(** * Recipe pages of flask-example/app.py

    A shallow embedding of the five view functions of [app.py] and of the
    module-level list [recipes] they read, with the properties of the
    lookup by identifier and of the page handlers.

    Python objects are modelled as the source has them: a recipe is a
    [dict] with string keys (a [gmap string pyval]), the module-level
    [recipes] is a mutable list of such dicts and lives in the store that
    every view function is run in, subscripting a dict may raise
    [KeyError], and a view function returns either a [str] or a
    [(str, int)] pair. The URL rule of the detail page converts a path
    segment with the routing library's [int] converter before the view
    function is called. *)

From Stdlib Require Import ZArith List Lia Ascii.
From stdpp Require Import base strings gmap list pretty.

Local Open Scope string_scope.
Local Open Scope list_scope.
Local Open Scope Z_scope.

(** ** Python values *)

Module Py.

(** The values stored in a recipe dict: [int] (unbounded) and [str]. *)
Inductive pyval : Type :=
| VInt (z : Z)
| VStr (s : string).

(** [a == b] on these values; an [int] never equals a [str]. *)
Definition py_eq (a b : pyval) : bool :=
  match a, b with
  | VInt x, VInt y => (x =? y)%Z
  | VStr s, VStr t => String.eqb s t
  | _, _ => false
  end.

(** Truth value of a dict: [len(d) != 0]. *)
Definition dict_truthy (d : gmap string pyval) : bool :=
  negb (Nat.eqb (size d) 0).

(** Exceptions a view function of this module can raise. *)
Inductive exn : Type :=
| KeyError (key : string).

(** [needle in hay] on strings. *)
Fixpoint str_in (needle hay : string) : bool :=
  String.prefix needle hay ||
  match hay with
  | EmptyString => false
  | String _ hay' => str_in needle hay'
  end.

End Py.
Import Py.

(** ** The store and the monad of view functions *)

(** The module-level mutable state: the list bound to [recipes]. *)
Abbreviation store := (list (gmap string pyval)).

Inductive outcome (A : Type) : Type :=
| Return (a : A)
| Raise (e : exn).
Arguments Return {A} a.
Arguments Raise {A} e.

(** A computation reads and may write the store, and returns or raises. *)
Definition M (A : Type) : Type := store -> outcome A * store.

Definition ret {A} (a : A) : M A := fun st => (Return a, st).

Definition bind {A B} (c : M A) (k : A -> M B) : M B :=
  fun st =>
    match c st with
    | (Return a, st') => k a st'
    | (Raise e, st') => (Raise e, st')
    end.

(** Reading the global name [recipes]. *)
Definition load_recipes : M store := fun st => (Return st, st).

(** A pure computation that may raise, run inside [M]. *)
Definition lift {A} (o : outcome A) : M A := fun st => (o, st).

Notation "'let*' x ':=' c 'in' k" := (bind c (fun x => k))
  (at level 10, x name, c at level 100, k at level 200).

(** ** The seeded collection (app.py, lines 6-25) *)

Definition recipe_1 : gmap string pyval :=
  list_to_map
    [("id", VInt 1);
     ("name", VStr "Adobo");
     ("category", VStr "Main Course");
     ("description", VStr "A savoury dish of marinated pork or chicken simmered in soy sauce, vinegar, and garlic.")].

Definition recipe_2 : gmap string pyval :=
  list_to_map
    [("id", VInt 2);
     ("name", VStr "Kare-Kare");
     ("category", VStr "Main Course");
     ("description", VStr "A rich peanut-based stew with oxtail, beef, or pork, served with a side of shrimp paste (bagoong).")].

Definition recipe_3 : gmap string pyval :=
  list_to_map
    [("id", VInt 3);
     ("name", VStr "Lumpia");
     ("category", VStr "Main Course");
     ("description", VStr "A crispy, golden fried spring roll filled with seasoned ground pork and vegetables, often served with sweet and sour dipping sauce.")].

Definition recipes : store := [recipe_1; recipe_2; recipe_3].

(** ** Template rendering and view results *)

(** The keyword arguments given to [render_template]. *)
Inductive ctxval : Type :=
| CRecipes (rs : store)
| CRecipe (r : gmap string pyval).

Abbreviation context := (list (string * ctxval)).

(** What a view function returns: a [str], sent with the default status
    200, or a [(str, int)] pair of body and status. *)
Inductive view_return : Type :=
| Str (body : string)
| StrStatus (body : string) (status : Z).

Definition status_of (v : view_return) : Z :=
  match v with
  | Str _ => 200
  | StrStatus _ s => s
  end.

(** The scan of [next((r for r in recipes if r['id'] == recipe_id), None)]:
    the generator visits the list in order, subscripts each dict with
    ['id'] (which raises [KeyError] if the key is absent), and [next]
    stops at the first dict that passes the test; the default [None] is
    returned when the generator is exhausted. *)
Fixpoint next_match (rs : store) (recipe_id : Z)
  : outcome (option (gmap string pyval)) :=
  match rs with
  | [] => Return None
  | r :: rs' =>
      match r !! "id" with
      | None => Raise (KeyError "id")
      | Some v =>
          if py_eq v (VInt recipe_id) then Return (Some r)
          else next_match rs' recipe_id
      end
  end.

Section Views.

(** [flask.render_template]: the templates are files outside this module;
    rendering is a function of the template name and the context. *)
Variable render_template : string -> context -> string.

(** [index] (lines 27-30). *)
Definition index : M view_return :=
  let* rs := load_recipes in
  ret (Str (render_template "index.html" [("recipes", CRecipes rs)])).

(** [recipe_detail] (lines 32-41). The test [if recipe:] is false for
    [None] and for a dict of length 0. *)
Definition recipe_detail (recipe_id : Z) : M view_return :=
  let* rs := load_recipes in
  let* recipe := lift (next_match rs recipe_id) in
  match recipe with
  | Some r =>
      if dict_truthy r
      then ret (Str (render_template "recipe_detail.html" [("recipe", CRecipe r)]))
      else ret (StrStatus "Recipe not found" 404)
  | None => ret (StrStatus "Recipe not found" 404)
  end.

(** [add_recipe] (lines 43-46). *)
Definition add_recipe : M view_return :=
  ret (Str (render_template "add_recipe.html" [])).

(** [about] (lines 48-51). *)
Definition about : M view_return :=
  ret (Str (render_template "about.html" [])).

(** [contact] (lines 53-56). *)
Definition contact : M view_return :=
  ret (Str (render_template "contact.html" [])).

End Views.

(** ** Requests and dispatch *)

(** The five URL rules registered by the [@app.route] decorators, with
    the argument the rule converts for the view function. *)
Inductive endpoint : Type :=
| EpIndex
| EpRecipeDetail (recipe_id : Z)
| EpAddRecipe
| EpAbout
| EpContact.

(** A request that reached a view function: the matched rule and whatever
    the client sent along (form fields). The module never imports
    [flask.request], so no view function can read [form]. *)
Record request : Type := mkRequest {
  endpoint_of : endpoint;
  form : list (string * string)
}.

Section Dispatch.

Variable render_template : string -> context -> string.

Definition dispatch_request (req : request) : M view_return :=
  match endpoint_of req with
  | EpIndex => index render_template
  | EpRecipeDetail recipe_id => recipe_detail render_template recipe_id
  | EpAddRecipe => add_recipe render_template
  | EpAbout => about render_template
  | EpContact => contact render_template
  end.

(** Requests handled one after the other on the same module state. A
    raised exception ends that request only. *)
Fixpoint serve (reqs : list request) (st : store)
  : list (outcome view_return) * store :=
  match reqs with
  | [] => ([], st)
  | req :: reqs' =>
      let (o, st1) := dispatch_request req st in
      let (os, st2) := serve reqs' st1 in
      (o :: os, st2)
  end.

End Dispatch.

(** A response counts as successful when the view function returned and
    the status sent is 200. *)
Definition successful (o : outcome view_return) : bool :=
  match o with
  | Return v => (status_of v =? 200)%Z
  | Raise _ => false
  end.

(** ** The lookup as the specification words it *)

(** "the record's identifier matches the given identifier" *)
Definition has_id (recipe_id : Z) (r : gmap string pyval) : bool :=
  match r !! "id" with
  | Some v => py_eq v (VInt recipe_id)
  | None => false
  end.

(** "return the first record whose identifier matches, or a not-found
    signal if none matches" *)
Definition first_with_id (rs : store) (recipe_id : Z)
  : option (gmap string pyval) :=
  List.find (has_id recipe_id) rs.

(** Every dict of the store has the key ['id']. *)
Definition well_keyed (st : store) : Prop :=
  Forall (fun r => is_Some (r !! "id")) st.

(** ** A stand-in renderer *)

Definition name_line (r : gmap string pyval) : string :=
  match r !! "name" with
  | Some (VStr s) => s +:+ ";"
  | _ => ""
  end.

Fixpoint name_lines (rs : store) : string :=
  match rs with
  | [] => ""
  | r :: rs' => name_line r +:+ name_lines rs'
  end.

(** Modelled from the spec: the template files [index.html],
    [recipe_detail.html], [add_recipe.html], [about.html] and
    [contact.html] are not part of the sources. This renderer stands for
    them where a concrete one is needed: the list page prints the name of
    every recipe it is given, the detail page the name of its recipe, and
    the static pages their own name. *)
Definition sample_render (template : string) (ctx : context) : string :=
  match ctx with
  | [(_, CRecipes rs)] => name_lines rs
  | [(_, CRecipe r)] => name_line r
  | _ => template
  end.

(** The list template prints the name of each recipe it is given. *)
Definition lists_recipe_names (render : string -> context -> string) : Prop :=
  forall (rs : store) (r : gmap string pyval) (n : string),
    In r rs -> r !! "name" = Some (VStr n) ->
    str_in n (render "index.html" [("recipes", CRecipes rs)]) = true.

(** Two recipe dicts show the same name, category and description, all
    three being present. *)
Definition same_fields (r s : gmap string pyval) : Prop :=
  Forall (fun k : string => is_Some (s !! k) /\ r !! k = s !! k)
         ["name"; "category"; "description"].

(** ** The URL rule of the detail page (line 32) *)








Section Routing.

Variable render_template : string -> context -> string.


End Routing.

(** * Properties *)

(** ** Python equality and truth *)

Lemma py_eq_int (v : pyval) (z : Z) : py_eq v (VInt z) = true <-> v = VInt z.
Proof.
  destruct v as [x|t]; simpl.
  - rewrite Z.eqb_eq. split; [intros ->; reflexivity | congruence].
  - split; intros H; discriminate H.
Qed.

Lemma has_id_lookup (recipe_id : Z) (r : gmap string pyval) :
  has_id recipe_id r = true <-> r !! "id" = Some (VInt recipe_id).
Proof.
  unfold has_id. destruct (r !! "id") as [v|] eqn:E.
  - rewrite py_eq_int. split; congruence.
  - split; intros H; discriminate H.
Qed.

Lemma has_id_false (recipe_id : Z) (r : gmap string pyval) :
  has_id recipe_id r = false <-> r !! "id" <> Some (VInt recipe_id).
Proof.
  rewrite <- has_id_lookup. destruct (has_id recipe_id r); split; congruence.
Qed.

(** A dict that has a key is not empty, so it is true in a test. *)
Lemma keyed_dict_truthy (r : gmap string pyval) (k : string) :
  is_Some (r !! k) -> dict_truthy r = true.
Proof.
  intros [v Hv]. unfold dict_truthy.
  destruct (size r) eqn:E; [|reflexivity].
  apply map_size_empty_iff in E. subst r.
  rewrite lookup_empty in Hv. discriminate Hv.
Qed.

(** ** The scan *)

Lemma find_split {A} (p : A -> bool) (l : list A) (x : A) :
  List.find p l = Some x ->
  exists l1 l2, l = l1 ++ x :: l2 /\ p x = true /\
                Forall (fun y => p y = false) l1.
Proof.
  induction l as [|a l IH]; simpl; [discriminate|].
  destruct (p a) eqn:E.
  - intros [= ->]. exists [], l. auto.
  - intros H. destruct (IH H) as (l1 & l2 & -> & Hx & Hl1).
    exists (a :: l1), l2. auto.
Qed.

Lemma find_none_all {A} (p : A -> bool) (l : list A) :
  List.find p l = None -> Forall (fun y => p y = false) l.
Proof.
  induction l as [|a l IH]; simpl; [constructor|].
  destruct (p a) eqn:E; [discriminate|]. auto.
Qed.

(** On a store whose dicts all have the key, the generator scan is the
    specification's "first record whose identifier matches". *)
Lemma next_match_first_with_id (st : store) (recipe_id : Z) :
  well_keyed st ->
  next_match st recipe_id = Return (first_with_id st recipe_id).
Proof.
  unfold first_with_id. induction 1 as [|r st [v Hv] _ IH]; simpl; [reflexivity|].
  unfold has_id. rewrite Hv. destruct (py_eq v (VInt recipe_id)); auto.
Qed.

(** A dict without the key makes the scan raise, unless a match comes
    before it. *)
Lemma next_match_key_error (l1 l2 : store) (r : gmap string pyval) (recipe_id : Z) :
  Forall (fun y => has_id recipe_id y = false) l1 -> well_keyed l1 ->
  r !! "id" = None ->
  next_match (l1 ++ r :: l2) recipe_id = Raise (KeyError "id").
Proof.
  intros Hno Hk Hr. induction l1 as [|a l1 IH]; simpl.
  - rewrite Hr. reflexivity.
  - inversion Hno as [|? ? Ha Hno']; subst.
    inversion Hk as [|? ? [v Hv] Hk']; subst.
    unfold has_id in Ha. rewrite Hv in Ha |- *. rewrite Ha. auto.
Qed.

Section ViewFacts.

Variable render_template : string -> context -> string.

(** [recipe_detail] on a well-keyed store, in terms of the specification's
    lookup. *)
Lemma recipe_detail_first_with_id (st : store) (recipe_id : Z) :
  well_keyed st ->
  recipe_detail render_template recipe_id st =
    (Return
       match first_with_id st recipe_id with
       | Some r => Str (render_template "recipe_detail.html" [("recipe", CRecipe r)])
       | None => StrStatus "Recipe not found" 404
       end, st).
Proof.
  intros Hk. unfold recipe_detail, bind, load_recipes, lift.
  rewrite (next_match_first_with_id _ _ Hk).
  destruct (first_with_id st recipe_id) as [r|] eqn:E; [|reflexivity].
  apply find_split in E as (l1 & l2 & _ & Hr & _).
  apply has_id_lookup in Hr.
  rewrite (keyed_dict_truthy r "id"); [reflexivity | eauto].
Qed.

(** No view function writes the store. *)
Lemma recipe_detail_store (recipe_id : Z) (st : store) :
  snd (recipe_detail render_template recipe_id st) = st.
Proof.
  unfold recipe_detail, bind, load_recipes, lift.
  destruct (next_match st recipe_id) as [[r|]|e]; simpl; try reflexivity.
  destruct (dict_truthy r); reflexivity.
Qed.

Lemma dispatch_request_store (req : request) (st : store) :
  snd (dispatch_request render_template req st) = st.
Proof.
  unfold dispatch_request. destruct (endpoint_of req); try reflexivity.
  apply recipe_detail_store.
Qed.

Lemma serve_store (reqs : list request) (st : store) :
  snd (serve render_template reqs st) = st.
Proof.
  revert st. induction reqs as [|req reqs IH]; intros st; simpl; [reflexivity|].
  pose proof (dispatch_request_store req st) as H1.
  destruct (dispatch_request render_template req st) as [o st1]. simpl in H1. subst st1.
  pose proof (IH st) as H2.
  destruct (serve render_template reqs st) as [os st2]. exact H2.
Qed.

End ViewFacts.

Lemma recipes_well_keyed : well_keyed recipes.
Proof. repeat constructor; vm_compute; eauto. Qed.

(** ** Strings *)

Lemma prefix_append (n x : string) : String.prefix n (n +:+ x) = true.
Proof.
  induction n as [|c n IH]; simpl; [destruct x; reflexivity|].
  destruct (Ascii.ascii_dec c c); [exact IH | congruence].
Qed.

Lemma prefix_append_l (n a b : string) :
  String.prefix n a = true -> String.prefix n (a +:+ b) = true.
Proof.
  revert a. induction n as [|c n IH]; intros a H.
  - destruct (a +:+ b); reflexivity.
  - destruct a as [|d a]; simpl in *; [discriminate|].
    destruct (Ascii.ascii_dec c d); [auto | discriminate].
Qed.

Lemma str_in_eq (n hay : string) :
  str_in n hay =
    String.prefix n hay ||
    match hay with
    | EmptyString => false
    | String _ hay' => str_in n hay'
    end.
Proof. destruct hay; reflexivity. Qed.

Lemma str_in_prefix (n hay : string) :
  String.prefix n hay = true -> str_in n hay = true.
Proof. intros H. rewrite str_in_eq, H. reflexivity. Qed.

Lemma str_in_append_l (n a b : string) :
  str_in n a = true -> str_in n (a +:+ b) = true.
Proof.
  induction a as [|c a IH]; intros H; rewrite str_in_eq in H;
    apply orb_true_iff in H as [H|H].
  - apply str_in_prefix, (prefix_append_l n "" b), H.
  - discriminate H.
  - apply str_in_prefix, prefix_append_l, H.
  - change (String c a +:+ b) with (String c (a +:+ b)).
    rewrite str_in_eq, (IH H). apply orb_true_r.
Qed.

Lemma str_in_append_r (n a b : string) :
  str_in n b = true -> str_in n (a +:+ b) = true.
Proof.
  intros H. induction a as [|c a IH]; [exact H|].
  change (String c a +:+ b) with (String c (a +:+ b)).
  rewrite str_in_eq, IH. apply orb_true_r.
Qed.

Lemma sample_render_lists_names : lists_recipe_names sample_render.
Proof.
  intros rs r n Hin Hn. simpl.
  induction rs as [|a rs IH]; simpl; [destruct Hin|].
  destruct Hin as [->|Hin].
  - apply str_in_append_l. unfold name_line. rewrite Hn.
    apply str_in_prefix, prefix_append.
  - apply str_in_append_r. auto.
Qed.

(** ** The [int] converter *)









(** ** The claims *)

(** C1. For every integer identifier, the scan of [recipe_detail] over the
    seeded collection returns what the specification's lookup returns: the
    first record, in list order, whose identifier equals the given one
    (every record before it has another identifier), and then the detail
    page of that record is rendered; or the not-found signal [None] when
    no record of the collection has that identifier, and then the
    not-found result is returned. *)
Theorem recipe_detail_first_match
    (render_template : string -> context -> string) (recipe_id : Z) :
  next_match recipes recipe_id = Return (first_with_id recipes recipe_id) /\
  match first_with_id recipes recipe_id with
  | Some r =>
      (exists l1 l2 : store,
          recipes = l1 ++ r :: l2 /\
          r !! "id" = Some (VInt recipe_id) /\
          Forall (fun r' : gmap string pyval =>
                    r' !! "id" <> Some (VInt recipe_id)) l1) /\
      recipe_detail render_template recipe_id recipes =
        (Return (Str (render_template "recipe_detail.html"
                        [("recipe", CRecipe r)])), recipes)
  | None =>
      Forall (fun r' : gmap string pyval =>
                r' !! "id" <> Some (VInt recipe_id)) recipes /\
      recipe_detail render_template recipe_id recipes =
        (Return (StrStatus "Recipe not found" 404), recipes)
  end.
Proof.
  split; [apply next_match_first_with_id, recipes_well_keyed|].
  pose proof (recipe_detail_first_with_id render_template recipes recipe_id
                recipes_well_keyed) as Hd.
  destruct (first_with_id recipes recipe_id) as [r|] eqn:E.
  - split; [|exact Hd].
    apply find_split in E as (l1 & l2 & Heq & Hr & Hl1).
    exists l1, l2. split; [exact Heq|]. split; [apply has_id_lookup, Hr|].
    eapply Forall_impl; [exact Hl1|]. intros a Ha. apply has_id_false, Ha.
  - split; [|exact Hd].
    apply find_none_all in E.
    eapply Forall_impl; [exact E|]. intros a Ha. apply has_id_false, Ha.
Qed.





(** C3. For every identifier present in the collection (1, 2 and 3),
    [recipe_detail] succeeds and renders the detail template with a record
    of the collection that has this identifier; its name, category and
    description are those of any seeded record with this identifier. *)
Theorem recipe_detail_present
    (render_template : string -> context -> string) (recipe_id : Z) :
  In recipe_id [1; 2; 3] ->
  exists r : gmap string pyval,
    In r recipes /\
    r !! "id" = Some (VInt recipe_id) /\
    (forall s : gmap string pyval,
        In s recipes -> s !! "id" = Some (VInt recipe_id) -> same_fields r s) /\
    recipe_detail render_template recipe_id recipes =
      (Return (Str (render_template "recipe_detail.html"
                      [("recipe", CRecipe r)])), recipes) /\
    successful (fst (recipe_detail render_template recipe_id recipes)) = true.
Proof.
  intros Hid.
  assert (Hcase : recipe_id = 1 \/ recipe_id = 2 \/ recipe_id = 3)
    by (simpl in Hid; intuition congruence).
  destruct Hcase as [-> | [-> | ->]];
    [exists recipe_1 | exists recipe_2 | exists recipe_3];
    (split; [simpl; tauto|]);
    (split; [vm_compute; reflexivity|]);
    (split; [|split; vm_compute; reflexivity]);
    intros s [<-|[<-|[<-|[]]]] Hs;
    try (vm_compute in Hs; discriminate Hs);
    repeat constructor; vm_compute; eauto.
Qed.

Lemma recipe_detail_present_witness :
  In 2 [1; 2; 3] /\
  exists r : gmap string pyval,
    In r recipes /\
    r !! "id" = Some (VInt 2) /\
    (forall s : gmap string pyval,
        In s recipes -> s !! "id" = Some (VInt 2) -> same_fields r s) /\
    recipe_detail sample_render 2 recipes =
      (Return (Str (sample_render "recipe_detail.html"
                      [("recipe", CRecipe r)])), recipes) /\
    successful (fst (recipe_detail sample_render 2 recipes)) = true.
Proof.
  assert (H : In 2 [1; 2; 3]) by (simpl; tauto).
  split; [exact H | exact (recipe_detail_present sample_render 2 H)].
Defined.

(** C4. The seeded collection has exactly 3 records, their identifiers
    are 1, 2 and 3 in this order, and no identifier occurs twice. *)
Theorem recipes_seeded :
  length recipes = 3%nat /\
  map (fun r : gmap string pyval => r !! "id") recipes =
    [Some (VInt 1); Some (VInt 2); Some (VInt 3)] /\
  NoDup (map (fun r : gmap string pyval => r !! "id") recipes).
Proof.
  split; [reflexivity|].
  assert (E : map (fun r : gmap string pyval => r !! "id") recipes =
              [Some (VInt 1); Some (VInt 2); Some (VInt 3)])
    by (vm_compute; reflexivity).
  split; [exact E|]. rewrite E.
  repeat constructor; rewrite ?list_elem_of_In; simpl; intuition discriminate.
Qed.

(** C5. Every view function (home, recipe detail, add-recipe, about,
    contact) leaves the module-level collection as it found it, whatever
    the collection and the request are, also when the lookup raises; so
    does any sequence of requests. *)
Theorem handlers_keep_recipes
    (render_template : string -> context -> string) :
  (forall st : store, snd (index render_template st) = st) /\
  (forall (recipe_id : Z) (st : store),
      snd (recipe_detail render_template recipe_id st) = st) /\
  (forall st : store, snd (add_recipe render_template st) = st) /\
  (forall st : store, snd (about render_template st) = st) /\
  (forall st : store, snd (contact render_template st) = st) /\
  (forall (req : request) (st : store),
      snd (dispatch_request render_template req st) = st) /\
  (forall (reqs : list request) (st : store),
      snd (serve render_template reqs st) = st).
Proof.
  repeat split; intros; try reflexivity;
    auto using recipe_detail_store, dispatch_request_store, serve_store.
Qed.

(** [index] hands the whole collection it reads to the list template. *)
Lemma index_passes_store
    (render_template : string -> context -> string) (st : store) :
  index render_template st =
    (Return (Str (render_template "index.html" [("recipes", CRecipes st)])), st).
Proof. reflexivity. Qed.

(** C6. The home view supplies the complete seeded collection, whose names
    are "Adobo", "Kare-Kare" and "Lumpia", to the rendering of
    [index.html]; with a list template that prints the name of each recipe
    it is given, the body of the home page includes the three names. *)
Theorem index_includes_all_names
    (render_template : string -> context -> string) :
  lists_recipe_names render_template ->
  exists page : string,
    index render_template recipes = (Return (Str page), recipes) /\
    page = render_template "index.html" [("recipes", CRecipes recipes)] /\
    map (fun r : gmap string pyval => r !! "name") recipes =
      [Some (VStr "Adobo"); Some (VStr "Kare-Kare"); Some (VStr "Lumpia")] /\
    Forall (fun n : string => str_in n page = true)
           ["Adobo"; "Kare-Kare"; "Lumpia"].
Proof.
  intros Hlist. eexists. split; [apply index_passes_store|].
  split; [reflexivity|]. split; [vm_compute; reflexivity|].
  repeat constructor.
  - apply (Hlist recipes recipe_1); [simpl; tauto | vm_compute; reflexivity].
  - apply (Hlist recipes recipe_2); [simpl; tauto | vm_compute; reflexivity].
  - apply (Hlist recipes recipe_3); [simpl; tauto | vm_compute; reflexivity].
Qed.

Lemma index_includes_all_names_witness :
  lists_recipe_names sample_render /\
  exists page : string,
    index sample_render recipes = (Return (Str page), recipes) /\
    page = sample_render "index.html" [("recipes", CRecipes recipes)] /\
    map (fun r : gmap string pyval => r !! "name") recipes =
      [Some (VStr "Adobo"); Some (VStr "Kare-Kare"); Some (VStr "Lumpia")] /\
    Forall (fun n : string => str_in n page = true)
           ["Adobo"; "Kare-Kare"; "Lumpia"].
Proof.
  split; [exact sample_render_lists_names|].
  exact (index_includes_all_names sample_render sample_render_lists_names).
Defined.

(** C7. A request to the add-recipe, about or contact page returns a page
    with status 200 whatever the request carries and whatever the store
    is: the page is the rendering of one fixed template with an empty
    context. On the seeded collection, after any history of requests, the
    only response that is not successful is the pair of "Recipe not found"
    and 404 of the detail view; no view function raises. *)
Theorem static_pages_succeed
    (render_template : string -> context -> string) :
  (forall (req : request) (st : store),
      In (endpoint_of req) [EpAddRecipe; EpAbout; EpContact] ->
      exists template : string,
        In template ["add_recipe.html"; "about.html"; "contact.html"] /\
        (forall (form' : list (string * string)) (st' : store),
            dispatch_request render_template
              (mkRequest (endpoint_of req) form') st' =
              (Return (Str (render_template template [])), st')) /\
        successful (fst (dispatch_request render_template req st)) = true) /\
  (forall (history : list request) (req : request),
      successful
        (fst (dispatch_request render_template req
                (snd (serve render_template history recipes)))) = false ->
      exists recipe_id : Z,
        endpoint_of req = EpRecipeDetail recipe_id /\
        fst (dispatch_request render_template req
               (snd (serve render_template history recipes))) =
          Return (StrStatus "Recipe not found" 404)).
Proof.
  split.
  - intros [ep f] st Hep. simpl in Hep.
    destruct Hep as [<-|[<-|[<-|[]]]];
      [exists "add_recipe.html" | exists "about.html" | exists "contact.html"];
      (split; [simpl; tauto|]); split; intros; reflexivity.
  - intros history [ep f]. rewrite serve_store.
    destruct ep as [|recipe_id| | |]; unfold dispatch_request; simpl;
      try (intros H; discriminate H).
    rewrite (recipe_detail_first_with_id _ _ _ recipes_well_keyed).
    destruct (first_with_id recipes recipe_id); simpl; intros H;
      [discriminate H|]. exists recipe_id. split; reflexivity.
Qed.

Lemma static_pages_succeed_witness :
  successful
    (fst (dispatch_request sample_render
            (mkRequest EpAbout [("name", "Sinigang")]) recipes)) = true /\
  fst (dispatch_request sample_render (mkRequest (EpRecipeDetail 999) [])
         (snd (serve sample_render [mkRequest EpIndex []] recipes))) =
    Return (StrStatus "Recipe not found" 404).
Proof.
  split.
  - destruct (proj1 (static_pages_succeed sample_render)
                (mkRequest EpAbout [("name", "Sinigang")]) recipes)
      as (t & _ & _ & H); [simpl; tauto | exact H].
  - destruct (proj2 (static_pages_succeed sample_render)
                [mkRequest EpIndex []] (mkRequest (EpRecipeDetail 999) []))
      as (i & _ & H); [vm_compute; reflexivity | exact H].
Defined.

(** C8. The add-recipe view only renders [add_recipe.html] with an empty
    context: its result is the same whatever is submitted with the
    request. No endpoint reads submitted data, and no sequence of requests
    adds a record to the seeded collection. *)
Theorem add_recipe_ignores_submission
    (render_template : string -> context -> string) :
  (forall (form1 : list (string * string)) (st : store),
      dispatch_request render_template (mkRequest EpAddRecipe form1) st =
        (Return (Str (render_template "add_recipe.html" [])), st)) /\
  (forall (ep : endpoint) (form1 form2 : list (string * string)) (st : store),
      dispatch_request render_template (mkRequest ep form1) st =
      dispatch_request render_template (mkRequest ep form2) st) /\
  (forall reqs : list request,
      snd (serve render_template reqs recipes) = recipes /\
      length (snd (serve render_template reqs recipes)) = 3%nat).
Proof.
  split; [reflexivity|]. split; [reflexivity|].
  intros reqs. rewrite serve_store. split; reflexivity.
Qed.


(** C10. Two invocations of [recipe_detail] with the same identifier
    return the same result (body and status, or the same exception),
    whatever requests were handled before the first one and between the
    two, from the seeded collection as from any other. *)
Theorem recipe_detail_deterministic
    (render_template : string -> context -> string) (recipe_id : Z)
    (st : store) (before between : list request) :
  let st1 := snd (serve render_template before st) in
  let first := recipe_detail render_template recipe_id st1 in
  let st2 := snd (serve render_template between (snd first)) in
  let second := recipe_detail render_template recipe_id st2 in
  fst second = fst first /\
  fst first = fst (recipe_detail render_template recipe_id st).
Proof.
  cbv zeta. rewrite serve_store, recipe_detail_store, serve_store.
  split; reflexivity.
Qed.

(** ** Further properties of the lookup, on any collection *)

(** What the scan returns, on any store: a member with the identifier, or
    [None] after every dict was subscripted and none matched, or the
    [KeyError] of a dict without the key. *)
Lemma next_match_cases (st : store) (recipe_id : Z) :
  match next_match st recipe_id with
  | Return (Some r) => In r st /\ r !! "id" = Some (VInt recipe_id)
  | Return None =>
      well_keyed st /\
      Forall (fun y : gmap string pyval =>
                y !! "id" <> Some (VInt recipe_id)) st
  | Raise e =>
      e = KeyError "id" /\
      exists r : gmap string pyval, In r st /\ r !! "id" = None
  end.
Proof.
  induction st as [|a st IH]; simpl.
  - split; constructor.
  - destruct (a !! "id") as [v|] eqn:Ea; [|split; eauto].
    destruct (py_eq v (VInt recipe_id)) eqn:Ev.
    + apply py_eq_int in Ev. subst v. auto.
    + destruct (next_match st recipe_id) as [[r|]|e].
      * destruct IH as [Hin Hr]. auto.
      * destruct IH as [Hk Hno]. split; constructor; eauto.
        intros Hv. rewrite Ea in Hv. injection Hv as ->.
        rewrite (proj2 (py_eq_int _ _) eq_refl) in Ev. discriminate Ev.
      * destruct IH as [He (r & Hin & Hr)]. split; [exact He|].
        exists r. auto.
Qed.

(** The scan stops at the first dict with the identifier: what follows it
    is never subscripted. *)
Lemma next_match_stops (l1 l2 : store) (r : gmap string pyval) (recipe_id : Z) :
  well_keyed l1 ->
  Forall (fun y : gmap string pyval => y !! "id" <> Some (VInt recipe_id)) l1 ->
  r !! "id" = Some (VInt recipe_id) ->
  next_match (l1 ++ r :: l2) recipe_id = Return (Some r).
Proof.
  intros Hk Hno Hr. induction l1 as [|a l1 IH]; simpl.
  - rewrite Hr. simpl. rewrite Z.eqb_refl. reflexivity.
  - inversion Hk as [|? ? [v Hv] Hk']; subst.
    inversion Hno as [|? ? Ha Hno']; subst.
    rewrite Hv. destruct (py_eq v (VInt recipe_id)) eqn:Ev; [|auto].
    apply py_eq_int in Ev. congruence.
Qed.

Lemma recipe_detail_at_first
    (render_template : string -> context -> string)
    (l1 l2 : store) (r : gmap string pyval) (recipe_id : Z) :
  well_keyed l1 ->
  Forall (fun y : gmap string pyval => y !! "id" <> Some (VInt recipe_id)) l1 ->
  r !! "id" = Some (VInt recipe_id) ->
  recipe_detail render_template recipe_id (l1 ++ r :: l2) =
    (Return (Str (render_template "recipe_detail.html"
                    [("recipe", CRecipe r)])), l1 ++ r :: l2).
Proof.
  intros Hk Hno Hr. unfold recipe_detail, bind, load_recipes, lift.
  rewrite (next_match_stops l1 l2 r recipe_id Hk Hno Hr).
  rewrite (keyed_dict_truthy r "id"); [reflexivity | eauto].
Qed.

(** X1. Missing key: when a dict without the key ['id'] comes before any
    dict with the requested identifier, [recipe_detail] raises
    [KeyError('id')], even if a matching record follows; the collection is
    left as it was. *)
Theorem recipe_detail_key_error
    (render_template : string -> context -> string)
    (l1 l2 : store) (r : gmap string pyval) (recipe_id : Z) :
  well_keyed l1 ->
  Forall (fun y : gmap string pyval => y !! "id" <> Some (VInt recipe_id)) l1 ->
  r !! "id" = None ->
  recipe_detail render_template recipe_id (l1 ++ r :: l2) =
    (Raise (KeyError "id"), l1 ++ r :: l2).
Proof.
  intros Hk Hno Hr. unfold recipe_detail, bind, load_recipes, lift.
  rewrite (next_match_key_error l1 l2 r recipe_id); auto.
  eapply Forall_impl; [exact Hno|]. intros a Ha. apply has_id_false, Ha.
Qed.

Lemma recipe_detail_key_error_witness :
  recipe_detail sample_render 2
    ([recipe_1] ++ list_to_map [("name", VStr "Sinigang")] :: [recipe_2]) =
    (Raise (KeyError "id"),
     [recipe_1] ++ list_to_map [("name", VStr "Sinigang")] :: [recipe_2]).
Proof.
  apply (recipe_detail_key_error sample_render [recipe_1] [recipe_2]).
  - repeat constructor. vm_compute. eauto.
  - repeat constructor. vm_compute. intros H. discriminate H.
  - vm_compute. reflexivity.
Defined.

(** X2. First match wins: when the dicts before [r] all have the key and
    another identifier, and [r] has the requested identifier,
    [recipe_detail] renders [r] whatever follows it in the collection, be
    it a second record with the same identifier or a dict without the
    key. *)
Theorem recipe_detail_first_wins
    (render_template : string -> context -> string)
    (l1 l2 : store) (r : gmap string pyval) (recipe_id : Z) :
  well_keyed l1 ->
  Forall (fun y : gmap string pyval => y !! "id" <> Some (VInt recipe_id)) l1 ->
  r !! "id" = Some (VInt recipe_id) ->
  recipe_detail render_template recipe_id (l1 ++ r :: l2) =
    (Return (Str (render_template "recipe_detail.html"
                    [("recipe", CRecipe r)])), l1 ++ r :: l2).
Proof. apply recipe_detail_at_first. Qed.

Lemma recipe_detail_first_wins_witness :
  recipe_detail sample_render 2
    ([recipe_1] ++ recipe_2 ::
       [list_to_map [("id", VInt 2); ("name", VStr "Sisig")];
        list_to_map [("name", VStr "Sinigang")]]) =
    (Return (Str (sample_render "recipe_detail.html"
                    [("recipe", CRecipe recipe_2)])),
     [recipe_1] ++ recipe_2 ::
       [list_to_map [("id", VInt 2); ("name", VStr "Sisig")];
        list_to_map [("name", VStr "Sinigang")]]).
Proof.
  apply (recipe_detail_first_wins sample_render [recipe_1]).
  - repeat constructor. vm_compute. eauto.
  - repeat constructor. vm_compute. intros H. discriminate H.
  - vm_compute. reflexivity.
Defined.

(** X3. On any collection whose dicts all have the key ['id'] (the empty
    one included), [recipe_detail] returns ("Recipe not found", 404)
    exactly when no record has the requested identifier. *)
Theorem recipe_detail_not_found_iff
    (render_template : string -> context -> string)
    (st : store) (recipe_id : Z) :
  well_keyed st ->
  recipe_detail render_template recipe_id st =
    (Return (StrStatus "Recipe not found" 404), st) <->
  (forall r : gmap string pyval,
      In r st -> r !! "id" <> Some (VInt recipe_id)).
Proof.
  intros Hk. rewrite (recipe_detail_first_with_id _ _ _ Hk).
  destruct (first_with_id st recipe_id) as [r|] eqn:E.
  - apply find_split in E as (l1 & l2 & -> & Hr & _).
    apply has_id_lookup in Hr. split; [intros H; discriminate H|].
    intros Hno. exfalso. apply (Hno r); [|exact Hr].
    apply in_or_app. right. left. reflexivity.
  - split; [|reflexivity]. intros _ r Hin.
    apply find_none_all in E. rewrite Forall_forall in E.
    apply has_id_false, E, list_elem_of_In, Hin.
Qed.

Lemma recipe_detail_not_found_iff_witness :
  well_keyed [recipe_3; recipe_1] /\
  (recipe_detail sample_render 2 [recipe_3; recipe_1] =
     (Return (StrStatus "Recipe not found" 404), [recipe_3; recipe_1]) <->
   (forall r : gmap string pyval,
       In r [recipe_3; recipe_1] -> r !! "id" <> Some (VInt 2))).
Proof.
  assert (Hk : well_keyed [recipe_3; recipe_1])
    by (repeat constructor; vm_compute; eauto).
  split; [exact Hk|].
  exact (recipe_detail_not_found_iff sample_render [recipe_3; recipe_1] 2 Hk).
Defined.

(** X4. On any collection, [recipe_detail] ends in one of three ways and
    no other: it renders the detail page of a member of the collection
    that has the requested identifier; or it returns
    ("Recipe not found", 404), and then every dict has the key and none
    has the identifier; or it raises [KeyError('id')], and then some dict
    lacks the key. In particular the test [if recipe:] never rejects a
    record the scan found. *)
Theorem recipe_detail_outcomes
    (render_template : string -> context -> string)
    (st : store) (recipe_id : Z) :
  (exists r : gmap string pyval,
      In r st /\ r !! "id" = Some (VInt recipe_id) /\
      recipe_detail render_template recipe_id st =
        (Return (Str (render_template "recipe_detail.html"
                        [("recipe", CRecipe r)])), st)) \/
  (recipe_detail render_template recipe_id st =
     (Return (StrStatus "Recipe not found" 404), st) /\
   well_keyed st /\
   Forall (fun y : gmap string pyval =>
             y !! "id" <> Some (VInt recipe_id)) st) \/
  (recipe_detail render_template recipe_id st = (Raise (KeyError "id"), st) /\
   exists r : gmap string pyval, In r st /\ r !! "id" = None).
Proof.
  pose proof (next_match_cases st recipe_id) as Hc.
  unfold recipe_detail, bind, load_recipes, lift.
  destruct (next_match st recipe_id) as [[r|]|e].
  - destruct Hc as [Hin Hr]. left. exists r.
    rewrite (keyed_dict_truthy r "id"); eauto.
  - right. left. split; [reflexivity | exact Hc].
  - destruct Hc as [-> Hex]. right. right. split; [reflexivity | exact Hex].
Qed.

(** A dict whose ['id'] is a string never passes the test against an
    integer, wherever it stands in the list. *)
Lemma next_match_skips_str_id
    (l1 l2 : store) (r : gmap string pyval) (s : string) (recipe_id : Z) :
  r !! "id" = Some (VStr s) ->
  next_match (l1 ++ r :: l2) recipe_id = next_match (l1 ++ l2) recipe_id.
Proof.
  intros Hr. induction l1 as [|a l1 IH]; simpl.
  - rewrite Hr. reflexivity.
  - destruct (a !! "id") as [v|]; [|reflexivity].
    destruct (py_eq v (VInt recipe_id)); [reflexivity | exact IH].
Qed.

(** X5. A record whose ['id'] is a string is never matched by an integer
    identifier, wherever it stands in the collection: [recipe_detail]
    answers as it does on the collection without that record. *)
Theorem recipe_detail_skips_str_id
    (render_template : string -> context -> string)
    (l1 l2 : store) (r : gmap string pyval) (s : string) (recipe_id : Z) :
  r !! "id" = Some (VStr s) ->
  fst (recipe_detail render_template recipe_id (l1 ++ r :: l2)) =
  fst (recipe_detail render_template recipe_id (l1 ++ l2)).
Proof.
  intros Hr. unfold recipe_detail, bind, load_recipes, lift.
  rewrite (next_match_skips_str_id l1 l2 r s recipe_id Hr).
  destruct (next_match (l1 ++ l2) recipe_id) as [[x|]|e]; simpl;
    try reflexivity.
  destruct (dict_truthy x); reflexivity.
Qed.

Lemma recipe_detail_skips_str_id_witness :
  fst (recipe_detail sample_render 7
         ([recipe_1] ++
            list_to_map [("id", VStr "7"); ("name", VStr "Halo-halo")]
            :: [recipe_2; recipe_3])) =
  fst (recipe_detail sample_render 7 ([recipe_1] ++ [recipe_2; recipe_3])).
Proof.
  apply (recipe_detail_skips_str_id sample_render [recipe_1]
           [recipe_2; recipe_3] _ "7").
  vm_compute. reflexivity.
Defined.

(** X6. On any collection whose dicts all have the key ['id'] with
    pairwise different values, every record with an integer identifier
    has its own detail page: [recipe_detail] called with the identifier of
    a record of the collection renders that very record. *)
Theorem recipe_detail_of_member
    (render_template : string -> context -> string)
    (st : store) (r : gmap string pyval) (recipe_id : Z) :
  well_keyed st ->
  NoDup (map (fun y : gmap string pyval => y !! "id") st) ->
  In r st ->
  r !! "id" = Some (VInt recipe_id) ->
  recipe_detail render_template recipe_id st =
    (Return (Str (render_template "recipe_detail.html"
                    [("recipe", CRecipe r)])), st).
Proof.
  intros Hk Hnd Hin Hr.
  apply in_split in Hin as (l1 & l2 & ->).
  unfold well_keyed in Hk. apply Forall_app in Hk as [Hk1 _].
  apply recipe_detail_at_first; [exact Hk1 | | exact Hr].
  rewrite map_app in Hnd. simpl in Hnd.
  apply NoDup_app in Hnd as (_ & Hdis & _).
  apply Forall_forall. intros y Hy Hyid.
  apply (Hdis (y !! "id")).
  - apply list_elem_of_In, in_map, list_elem_of_In, Hy.
  - rewrite Hyid, <- Hr. left.
Qed.

Lemma recipe_detail_of_member_witness :
  recipe_detail sample_render 1 [recipe_2; recipe_3; recipe_1] =
    (Return (Str (sample_render "recipe_detail.html"
                    [("recipe", CRecipe recipe_1)])),
     [recipe_2; recipe_3; recipe_1]).
Proof.
  apply (recipe_detail_of_member sample_render).
  - repeat constructor; vm_compute; eauto.
  - vm_compute. repeat constructor; rewrite ?list_elem_of_In; simpl;
      intuition discriminate.
  - simpl. tauto.
  - vm_compute. reflexivity.
Defined.

(** X7. The scan reads nothing but the key ['id']: rewriting the records
    with any function that keeps each dict's ['id'] entry (changing names,
    categories or descriptions, adding or dropping other keys) makes the
    scan stop at the same position, so it returns the rewritten version of
    the record it returned before, [None] where it returned [None], and
    the same exception where it raised. *)
Theorem next_match_reads_id_only
    (f : gmap string pyval -> gmap string pyval)
    (st : store) (recipe_id : Z) :
  (forall r : gmap string pyval, f r !! "id" = r !! "id") ->
  next_match (map f st) recipe_id =
    match next_match st recipe_id with
    | Return o => Return (option_map f o)
    | Raise e => Raise e
    end.
Proof.
  intros Hf. induction st as [|a st IH]; simpl; [reflexivity|].
  rewrite Hf. destruct (a !! "id") as [v|]; [|reflexivity].
  destruct (py_eq v (VInt recipe_id)); [reflexivity | exact IH].
Qed.

Lemma next_match_reads_id_only_witness :
  next_match (map (fun r => <["name" := VStr "Sisig"]> r) recipes) 3 =
    match next_match recipes 3 with
    | Return o => Return (option_map (fun r => <["name" := VStr "Sisig"]> r) o)
    | Raise e => Raise e
    end.
Proof.
  apply (next_match_reads_id_only (fun r => <["name" := VStr "Sisig"]> r)).
  intros r. apply lookup_insert_ne. intros H. discriminate H.
Defined.
